(** * fMI-side-hustle: OBD-II horsepower monitor (src/main.py)

  A shallow embedding of [main.py] and the properties of its parts:
  the two torque decoders, connection discovery, the capability gate,
  the telemetry aggregator with its horsepower calculation, the
  self-test and the program entry point.

  Python integers are [Z], Python floats are the kernel's binary64
  floats, byte arrays are [list byte], exceptions are an explicit
  result type, and console output and calls into the OBD session
  library are recorded as a trace of events. *)

From Stdlib Require Import ZArith List Bool Lia.
From Stdlib.Strings Require Import String Ascii Byte.
From Stdlib Require Import Floats DecimalString.
Import ListNotations.

Open Scope string_scope.
Open Scope Z_scope.

(** ** The Python fragment the program is written in *)

Module Py.

(** Exceptions the program can meet. [Exception_ msg] stands for any
    instance of [Exception] raised by a library (a serial or a socket
    error); [KeyboardInterrupt], [CancelledError] and [SystemExit] derive
    from [BaseException] only. *)
Inductive exn : Type :=
| IndexError
| Exception_ (msg : string)
| KeyboardInterrupt
| CancelledError
| SystemExit (code : Z).

(** [except Exception] *)
Definition is_Exception (e : exn) : bool :=
  match e with
  | IndexError | Exception_ _ => true
  | KeyboardInterrupt | CancelledError | SystemExit _ => false
  end.

(** A computation returns a value or raises. *)
Inductive result (A : Type) : Type :=
| Ret (a : A)
| Raise (e : exn).
Arguments Ret {A} a.
Arguments Raise {A} e.

Definition bind {A B} (m : result A) (k : A -> result B) : result B :=
  match m with
  | Ret a => k a
  | Raise e => Raise e
  end.

(** [xs[i]] for a non-negative literal index [i]. *)
Definition getitem {A} (xs : list A) (i : nat) : result A :=
  match nth_error xs i with
  | Some x => Ret x
  | None => Raise IndexError
  end.

(** A number held by a variable: an [int] or a [float]. *)
Inductive num : Type :=
| Int (z : Z)
| Float (f : float).

(** [float(z)]: the binary64 nearest to [z], exact below 2^53. (Python
    raises [OverflowError] where the nearest binary64 is an infinity; the
    ints of this program are decoder results, below 2^16.) *)
Definition float_of_Z (z : Z) : float :=
  SF2Prim (SpecFloat.binary_normalize 53 1024 z 0 false).

Definition to_float (x : num) : float :=
  match x with
  | Int z => float_of_Z z
  | Float f => f
  end.

(** [x / y], true division: the result is always a float. *)
Definition truediv (x y : num) : num :=
  Float (PrimFloat.div (to_float x) (to_float y)).

(** [x * y]: an int only when both operands are. *)
Definition mul (x y : num) : num :=
  match x, y with
  | Int a, Int b => Int (a * b)
  | _, _ => Float (PrimFloat.mul (to_float x) (to_float y))
  end.

End Py.

Notation "x <- m ;; k" := (Py.bind m (fun x => k))
(at level 61, m at next level, right associativity).

(** ** Torque decoders *)

Module Decoders.
Import Py.

(** A response message of the session library; only its payload is read. *)
Record Message : Type := { data : list byte }.

(** Modelled from the spec: [obd.utils.bytes_to_int] belongs to the
    external session library; applied to one data byte it is that byte
    read as an unsigned integer in [0,255]. *)
Definition bytes_to_int (b : byte) : Z := Z.of_N (Byte.to_N b).

Definition decode_percent_torque (messages : list Message)
  : result (option Z) :=
  match messages with
  | [] => Ret None
  | msg :: _ =>
      b0 <- getitem (data msg) 0 ;;
      let A := bytes_to_int b0 in
      let torque_percent := A - 125 in
      Ret (Some torque_percent)
  end.

Definition decode_reference_torque (messages : list Message)
  : result (option Z) :=
  match messages with
  | [] => Ret None
  | msg :: _ =>
      b0 <- getitem (data msg) 0 ;;
      let A := bytes_to_int b0 in
      b1 <- getitem (data msg) 1 ;;
      let B := bytes_to_int b1 in
      let torque := Z.shiftl A 8 + B in
      Ret (Some torque)
  end.

End Decoders.

(** ** Console formatting and the trace of effects *)

Module Console.
Import Py.

Definition string_of_Z (z : Z) : string :=
  NilZero.string_of_int (Z.to_int z).

(** Round [n / d] to the nearest integer, ties to even ([0 < d]). *)
Definition round_half_even (n d : Z) : Z :=
  let q := n / d in
  let r := n mod d in
  if 2 * r <? d then q
  else if d <? 2 * r then q + 1
  else if Z.even q then q else q + 1.

(** The digits of [format(x, '.2f')] for a magnitude of [hundredths]
    hundredths. *)
Definition fixed2 (hundredths : Z) : string :=
  let frac := hundredths mod 100 in
  string_of_Z (hundredths / 100) ++ "."
    ++ (if frac <? 10 then "0" else "") ++ string_of_Z frac.

(** [f"{x:.2f}"] on a float: the exact binary value rounded to two
    decimals, ties to even, with the sign kept (also on a zero). *)
Definition format_2f_float (f : float) : string :=
  match Prim2SF f with
  | SpecFloat.S754_nan => "nan"
  | SpecFloat.S754_infinity s => if s then "-inf" else "inf"
  | SpecFloat.S754_zero s => (if s then "-" else "") ++ "0.00"
  | SpecFloat.S754_finite s m e =>
      let h := if 0 <=? e
               then Z.pos m * 100 * 2 ^ e
               else round_half_even (Z.pos m * 100) (2 ^ (- e)) in
      (if s then "-" else "") ++ fixed2 h
  end.

(** [f"{x:.2f}"]: an int is converted to a float first. *)
Definition format_2f (x : num) : string := format_2f_float (to_float x).

(** [str(e)] inside a log line. *)
Definition str_exn (e : exn) : string :=
  match e with
  | IndexError => "list index out of range"
  | Exception_ msg => msg
  | KeyboardInterrupt => ""
  | CancelledError => ""
  | SystemExit code => string_of_Z code
  end.

(** [repr] of a list of device paths (paths without quotes or escapes). *)
Definition repr_list (xs : list string) : string :=
  "[" ++ String.concat ", " (map (fun x => "'" ++ x ++ "'") xs) ++ "]".

(** ['-' * n] *)
Fixpoint dashes (n : nat) : string :=
  match n with
  | O => ""
  | S k => "-" ++ dashes k
  end.

End Console.

(** The commands the program works with. *)
Inductive command : Type :=
| RPM
| ACTUAL_ENGINE_PERCENT_TORQUE
| ENGINE_REF_TORQUE.

(** [cmd.name] *)
Definition name (cmd : command) : string :=
match cmd with
| RPM => "RPM"
| ACTUAL_ENGINE_PERCENT_TORQUE => "ACTUAL_ENGINE_PERCENT_TORQUE"
| ENGINE_REF_TORQUE => "ENGINE_REF_TORQUE"
end.

(** What the program does to the outside, in order. *)
Inductive event : Type :=
| Print (line : string)
| SerialAsync (port : string)
| CreateConnection (ip : string) (port : Z)
| SocketClose (ip : string) (port : Z)
| SocketAsync (url : string)
| AddCustom (cmd : command)
| Watch (cmd : command)
| SetPollInterval (seconds : float)
| Start
| Stop.

(** An effectful computation: the events it performed, and how it ended. *)
Definition prog (A : Type) : Type := (list event * Py.result A)%type.

Module Prog.
Import Py.
Local Open Scope list_scope.

Definition ret {A} (a : A) : prog A := ([], Ret a).
Definition raise {A} (e : exn) : prog A := ([], Raise e).
Definition emit (ev : event) : prog unit := ([ev], Ret tt).
Definition print (line : string) : prog unit := emit (Print line).

Definition bind {A B} (m : prog A) (k : A -> prog B) : prog B :=
  match m with
  | (t, Ret a) => let (t', r) := k a in (t ++ t', r)
  | (t, Raise e) => (t, Raise e)
  end.

(** A call into a library: the event, then the library's answer. *)
Definition call {A} (ev : event) (answer : result A) : prog A :=
  ([ev], answer).

(** [try: body  except <caught> as e: handler e] *)
Definition try_except {A} (body : prog A) (caught : exn -> bool)
           (handler : exn -> prog A) : prog A :=
  match body with
  | (t, Ret a) => (t, Ret a)
  | (t, Raise e) =>
      if caught e then let (t', r) := handler e in (t ++ t', r)
      else (t, Raise e)
  end.

(** [try: body  finally: cleanup], with a cleanup that does not raise. *)
Definition try_finally {A} (body : prog A) (cleanup : list event) : prog A :=
  let (t, r) := body in (t ++ cleanup, r).

Definition trace {A} (m : prog A) : list event := fst m.
Definition outcome {A} (m : prog A) : result A := snd m.

End Prog.

Notation "x <-- m ;; k" := (Prog.bind m (fun x => k))
(at level 61, m at next level, right associativity).
Notation "m ;;; k" := (Prog.bind m (fun _ => k))
(at level 61, right associativity).

(** ** Horsepower calculation and the telemetry aggregator *)

Module Aggregator.
Import Py Console.
Local Open Scope list_scope.

(** The dictionary [data] of [main]: three fixed keys, each [None] or a
    number. *)
Record Data : Type := {
  data_RPM : option num;
  data_Torque_Percent : option num;
  data_Reference_Torque : option num
}.

Definition initial_data : Data :=
  {| data_RPM := None; data_Torque_Percent := None;
     data_Reference_Torque := None |}.

(** The two assignments of [process_data] and of [self_test]. *)
Definition actual_torque_nm (torque_percent reference_torque : num) : num :=
  mul (truediv torque_percent (Float 100)) reference_torque.

Definition horsepower (actual_torque rpm : num) : num :=
  truediv (mul actual_torque rpm) (Int 7127).

(** The four lines [process_data] prints. *)
Definition report_lines (rpm actual hp : num) : list event :=
  [ Print ("RPM: " ++ format_2f rpm ++ " RPM");
    Print ("Torque: " ++ format_2f actual ++ " Nm");
    Print ("Horsepower: " ++ format_2f hp ++ " HP");
    Print (dashes 30) ].

Definition process_data (data : Data) : list event :=
  match data_RPM data, data_Torque_Percent data,
        data_Reference_Torque data with
  | Some rpm, Some tp, Some rt =>
      let actual := actual_torque_nm tp rt in
      let hp := horsepower actual rpm in
      report_lines rpm actual hp
  | _, _, _ => []
  end.

(** Modelled from the spec: the result object the session library hands
    to a callback exposes "has value" and "numeric value". [value] is
    [None] for a null result; for RPM the number is the magnitude of the
    quantity. *)
Record OBDResponse : Type := { value : option num }.

Definition is_null (r : OBDResponse) : bool :=
  match value r with
  | None => true
  | Some _ => false
  end.

(** The callbacks: the new dictionary and what was printed. *)
Definition new_rpm (data : Data) (r : OBDResponse) : Data * list event :=
  if negb (is_null r) then
    match value r with
    | Some magnitude =>
        let data' :=
          {| data_RPM := Some magnitude;
             data_Torque_Percent := data_Torque_Percent data;
             data_Reference_Torque := data_Reference_Torque data |} in
        (data', process_data data')
    | None => (data, [])
    end
  else (data, []).

Definition new_torque_percent (data : Data) (r : OBDResponse)
  : Data * list event :=
  match value r with
  | Some v =>
      let data' :=
        {| data_RPM := data_RPM data;
           data_Torque_Percent := Some v;
           data_Reference_Torque := data_Reference_Torque data |} in
      (data', process_data data')
  | None => (data, [])
  end.

Definition new_reference_torque (data : Data) (r : OBDResponse)
  : Data * list event :=
  match value r with
  | Some v =>
      let data' :=
        {| data_RPM := data_RPM data;
           data_Torque_Percent := data_Torque_Percent data;
           data_Reference_Torque := Some v |} in
      (data', process_data data')
  | None => (data, [])
  end.

(** One callback invocation by the poller: the watched command and its
    response. *)
Definition delivery : Type := (command * OBDResponse)%type.

Definition deliver (data : Data) (d : delivery) : Data * list event :=
  match fst d with
  | RPM => new_rpm data (snd d)
  | ACTUAL_ENGINE_PERCENT_TORQUE => new_torque_percent data (snd d)
  | ENGINE_REF_TORQUE => new_reference_torque data (snd d)
  end.

(** The callbacks run one after the other on the shared dictionary. *)
Fixpoint poll (data : Data) (ds : list delivery) : Data * list event :=
  match ds with
  | [] => (data, [])
  | d :: rest =>
      let (data1, out1) := deliver data d in
      let (data2, out2) := poll data1 rest in
      (data2, out1 ++ out2)
  end.

(** *** The aggregator as the specification words it *)

Definition command_eqb (a b : command) : bool :=
  match a, b with
  | RPM, RPM => true
  | ACTUAL_ENGINE_PERCENT_TORQUE, ACTUAL_ENGINE_PERCENT_TORQUE => true
  | ENGINE_REF_TORQUE, ENGINE_REF_TORQUE => true
  | _, _ => false
  end.

(** The most recent non-null value delivered for [cmd], if any. *)
Fixpoint latest (cmd : command) (ds : list delivery) (seen : option num)
  : option num :=
  match ds with
  | [] => seen
  | (c, r) :: rest =>
      latest cmd rest
        (if command_eqb c cmd
         then match value r with Some v => Some v | None => seen end
         else seen)
  end.

(** The snapshot that the deliveries [ds] leave behind, field by field. *)
Definition snapshot_after (data : Data) (ds : list delivery) : Data :=
  {| data_RPM := latest RPM ds (data_RPM data);
     data_Torque_Percent :=
       latest ACTUAL_ENGINE_PERCENT_TORQUE ds (data_Torque_Percent data);
     data_Reference_Torque :=
       latest ENGINE_REF_TORQUE ds (data_Reference_Torque data) |}.

(** The report due after the deliveries [ds] followed by [d]: none when
    [d] is null or a field has never been set; otherwise one, from the
    most recent value of each field. *)
Definition report_due (ds : list delivery) (d : delivery) : list event :=
  match value (snd d) with
  | None => []
  | Some _ =>
      match latest RPM (ds ++ [d]) None,
            latest ACTUAL_ENGINE_PERCENT_TORQUE (ds ++ [d]) None,
            latest ENGINE_REF_TORQUE (ds ++ [d]) None with
      | Some rpm, Some tp, Some rt =>
          let actual := actual_torque_nm tp rt in
          report_lines rpm actual (horsepower actual rpm)
      | _, _, _ => []
      end
  end.

(** *** The calculator as the specification words it *)

Definition spec_ActualTorqueNm (TorquePercent ReferenceTorqueNm : float)
  : float :=
  PrimFloat.mul (PrimFloat.div TorquePercent 100%float) ReferenceTorqueNm.

Definition spec_HorsepowerHP (ActualTorqueNm rpm : float) : float :=
  PrimFloat.div (PrimFloat.mul ActualTorqueNm rpm) 7127%float.

End Aggregator.

(** ** Connection discovery *)

Module Discovery.
Import Py Console Prog.

(** A session handle as the program queries it. *)
Record Connection : Type := {
  portstr : string;
  is_connected : bool;
  supports : command -> bool;
  supports_multiple_commands : bool
}.

(** Modelled from the spec: the external collaborators of discovery.
    [comports] is the enumeration of serial device paths,
    [serial_async port] the answer of
    [obd.Async(port, baudrate=9600, fast=True)],
    [create_connection ip port] the answer of
    [socket.create_connection((ip, port), timeout=2)] and
    [socket_async url] the answer of
    [obd.Async(url, baudrate=None, protocol=None, fast=True)]. *)
Record World : Type := {
  comports : list string;
  serial_async : string -> result Connection;
  create_connection : string -> Z -> result unit;
  socket_async : string -> result Connection
}.

Definition wifi_addresses : list (string * Z) :=
  [ ("192.168.0.10", 35000);
    ("192.168.0.10", 23);
    ("192.168.0.11", 35000);
    ("192.168.0.123", 35000) ].

(** [f"socket://{ip}:{port}"] *)
Definition socket_url (ip : string) (port : Z) : string :=
  "socket://" ++ ip ++ ":" ++ string_of_Z port.

(** One pass of the serial loop body. [Some c] is [return connection];
    [None] is falling through to the next iteration. *)
Definition serial_attempt (w : World) (port : string)
  : prog (option Connection) :=
  try_except
    (print ("Trying serial port " ++ port) ;;;
     connection <-- call (SerialAsync port) (serial_async w port) ;;
     if is_connected connection then
       print ("Connected to OBD-II device on serial port " ++ port) ;;;
       ret (Some connection)
     else ret None)
    is_Exception
    (fun e =>
       print ("Failed to connect on serial port " ++ port ++ ": "
              ++ str_exn e) ;;;
       ret None).

Fixpoint serial_loop (w : World) (serial_ports : list string)
  : prog (option Connection) :=
  match serial_ports with
  | [] => ret None
  | port :: rest =>
      r <-- serial_attempt w port ;;
      match r with
      | Some connection => ret (Some connection)
      | None => serial_loop w rest
      end
  end.

(** One pass of the network loop body. *)
Definition wifi_attempt (w : World) (ip : string) (port : Z)
  : prog (option Connection) :=
  let endpoint := ip ++ ":" ++ string_of_Z port in
  try_except
    (print ("Trying WiFi address " ++ endpoint) ;;;
     call (CreateConnection ip port) (create_connection w ip port) ;;;
     emit (SocketClose ip port) ;;;
     connection <-- call (SocketAsync (socket_url ip port))
                         (socket_async w (socket_url ip port)) ;;
     if is_connected connection then
       print ("Connected to OBD-II device at " ++ endpoint) ;;;
       ret (Some connection)
     else ret None)
    is_Exception
    (fun e =>
       print ("Failed to connect to WiFi OBD-II device at " ++ endpoint
              ++ ": " ++ str_exn e) ;;;
       ret None).

Fixpoint wifi_loop (w : World) (addresses : list (string * Z))
  : prog (option Connection) :=
  match addresses with
  | [] => ret None
  | (ip, port) :: rest =>
      r <-- wifi_attempt w ip port ;;
      match r with
      | Some connection => ret (Some connection)
      | None => wifi_loop w rest
      end
  end.

Definition connect_obd (w : World) : prog Connection :=
  let serial_ports := comports w in
  print ("Available serial ports: " ++ repr_list serial_ports) ;;;
  r <-- serial_loop w serial_ports ;;
  match r with
  | Some connection => ret connection
  | None =>
      r' <-- wifi_loop w wifi_addresses ;;
      match r' with
      | Some connection => ret connection
      | None =>
          print "Could not connect to any OBD-II device." ;;;
          raise (SystemExit 1)
      end
  end.

(** *** Discovery as the specification words it *)

(** A transport candidate. *)
Inductive candidate : Type :=
| Serial (port : string)
| Wifi (ip : string) (port : Z).

(** Every serial candidate in enumeration order, then the fixed network
    list. *)
Definition candidates (w : World) : list candidate :=
  (map Serial (comports w)
   ++ map (fun a => Wifi (fst a) (snd a)) wifi_addresses)%list.

(** What probing a candidate yields: for a network endpoint the
    reachability check comes first. *)
Definition probe (w : World) (c : candidate) : result Connection :=
  match c with
  | Serial port => serial_async w port
  | Wifi ip port =>
      Py.bind (create_connection w ip port)
              (fun _ => socket_async w (socket_url ip port))
  end.

(** A probe failure: an error raised by the library, or a session that
    does not report connected. *)
Definition fails (w : World) (c : candidate) : bool :=
  match probe w c with
  | Ret connection => negb (is_connected connection)
  | Raise e => is_Exception e
  end.

(** The candidates a trace shows to have been probed, in order. *)
Definition probed_by (ev : event) : list candidate :=
  match ev with
  | SerialAsync port => [Serial port]
  | CreateConnection ip port => [Wifi ip port]
  | _ => []
  end.

Definition probed (t : list event) : list candidate :=
  flat_map probed_by t.

(** Discovery as one ordered try loop over candidate openers: the first
    opener that yields a connected session ends it. *)
Definition attempt (w : World) (c : candidate) : prog (option Connection) :=
  match c with
  | Serial port => serial_attempt w port
  | Wifi ip port => wifi_attempt w ip port
  end.

Fixpoint attempt_all (w : World) (cs : list candidate)
  : prog (option Connection) :=
  match cs with
  | [] => ret None
  | c :: rest =>
      r <-- attempt w c ;;
      match r with
      | Some connection => ret (Some connection)
      | None => attempt_all w rest
      end
  end.

End Discovery.

(** ** The main coroutine, the self-test and the entry point *)

Module Program.
Import Py Console Prog Aggregator Discovery.

(** The events of the polling phase: subscribing a callback, setting the
    poll interval, starting the poller. *)
Definition polls (ev : event) : bool :=
  match ev with
  | Watch _ | SetPollInterval _ | Start => true
  | _ => false
  end.

Definition required_commands : list command :=
  [RPM; ACTUAL_ENGINE_PERCENT_TORQUE; ENGINE_REF_TORQUE].

(** [for cmd in unsupported_commands: print(f"- {cmd.name}")] *)
Fixpoint print_names (cmds : list command) : prog unit :=
  match cmds with
  | [] => ret tt
  | cmd :: rest => print ("- " ++ name cmd) ;;; print_names rest
  end.

(** The capability gate of [main]. *)
Definition capability_gate (connection : Connection) : prog unit :=
  let unsupported_commands :=
    filter (fun cmd => negb (supports connection cmd)) required_commands in
  match unsupported_commands with
  | [] => ret tt
  | _ :: _ =>
      print "The following required PIDs are not supported by your vehicle:" ;;;
      print_names unsupported_commands ;;;
      print "Cannot calculate horsepower based on RPM and Torque." ;;;
      raise (SystemExit 1)
  end.

(** The poll interval [0.1], the binary64 nearest to one tenth. *)
Definition poll_interval : float := 0x1.999999999999ap-4%float.

(** [main]. The wait on an event that nobody sets never returns: it ends
    when an exception [thrown] is raised at the [await]; until then the
    poller runs the callbacks on [deliveries]. [connect_obd] returns a
    session or exits, so the test [connection is None] is never true, and
    assigning [True] to a true [supports_multiple_commands] changes
    nothing. *)
Definition main (w : World) (deliveries : list delivery) (thrown : exn)
  : prog unit :=
  connection <-- connect_obd w ;;
  emit (AddCustom ACTUAL_ENGINE_PERCENT_TORQUE) ;;;
  emit (AddCustom ENGINE_REF_TORQUE) ;;;
  capability_gate connection ;;;
  emit (Watch RPM) ;;;
  emit (Watch ACTUAL_ENGINE_PERCENT_TORQUE) ;;;
  emit (Watch ENGINE_REF_TORQUE) ;;;
  emit (SetPollInterval poll_interval) ;;;
  emit Start ;;;
  try_finally
    (try_except
       (snd (poll initial_data deliveries), Raise thrown)
       (fun e => match e with KeyboardInterrupt => true | _ => false end)
       (fun _ => print "Stopping..."))
    [Stop].

Definition self_test : prog unit :=
  let data_RPM := Float 3000 in
  let data_Torque_Percent := Float 50 in
  let data_Reference_Torque := Float 300 in
  let actual_torque_nm :=
    mul (truediv data_Torque_Percent (Float 100)) data_Reference_Torque in
  let horsepower := truediv (mul actual_torque_nm data_RPM) (Int 7127) in
  print "Self-test results:" ;;;
  print ("RPM: " ++ format_2f data_RPM ++ " RPM") ;;;
  print ("Torque Percent: " ++ format_2f data_Torque_Percent ++ "%") ;;;
  print ("Reference Torque: " ++ format_2f data_Reference_Torque ++ " Nm") ;;;
  print ("Actual Torque: " ++ format_2f actual_torque_nm ++ " Nm") ;;;
  print ("Horsepower: " ++ format_2f horsepower ++ " HP").

(** [asyncio.run(coroutine)] when the operator interrupts the program
    while the coroutine is suspended at its [await]. A suspended
    coroutine is resumed by the event loop only, and an interrupt is
    raised in the frame that is running, which is the loop's: the runner
    cancels the task, so it is [CancelledError] that is raised at the
    [await], and when the task has unwound with it [KeyboardInterrupt]
    leaves [asyncio.run]. This holds for the signal handler that
    [asyncio.run] installs since Python 3.11 and for the default one
    before it, where the pending tasks are cancelled as [asyncio.run]
    unwinds. A coroutine that ends before it reaches its [await] (here
    by [sys.exit]) passes its outcome on unchanged. *)
Definition asyncio_run (coroutine : exn -> prog unit) : prog unit :=
  let (t, r) := coroutine CancelledError in
  (t, match r with
      | Raise CancelledError => Raise KeyboardInterrupt
      | _ => r
      end).

(** The [__main__] block on the command line [argv]. *)
Definition script (argv : list string) (w : World)
           (deliveries : list delivery) : prog unit :=
  if (1 <? Z.of_nat (List.length argv))
     && String.eqb (List.nth 1 argv "") "--self-test"
  then self_test
  else asyncio_run (main w deliveries).

(** The exit status of the process: 0 when the script runs to its end,
    the argument of [sys.exit], 130 for an interrupt that nobody caught
    and 1 for any other exception. *)
Definition exit_status (r : result unit) : Z :=
  match r with
  | Ret _ => 0
  | Raise (SystemExit code) => code
  | Raise KeyboardInterrupt => 130
  | Raise _ => 1
  end.

End Program.

(** ** Scenarios *)

Module Scenario.
Import Py Aggregator Discovery.

Definition session (port : string) (connected : bool)
           (supported : command -> bool) : Connection :=
  {| portstr := port; is_connected := connected; supports := supported;
     supports_multiple_commands := false |}.

Definition all_supported (cmd : command) : bool := true.


(** Two serial devices, one that cannot be opened and one without a
    vehicle behind it; of the network endpoints only 192.168.0.10:23
    is reachable, and the session opened there is connected. *)
Definition garage (supported : command -> bool) : World :=
  {| comports := ["/dev/ttyUSB0"; "/dev/rfcomm0"];
     serial_async := fun port =>
       if String.eqb port "/dev/ttyUSB0"
       then Raise (Exception_ "could not open port")
       else Ret (session port false supported);
     create_connection := fun ip port =>
       if port =? 23 then Ret tt else Raise (Exception_ "timed out");
     socket_async := fun url => Ret (session url true supported) |}.

(** Nothing answers anywhere. *)
Definition nowhere : World :=
  {| comports := ["/dev/ttyUSB0"];
     serial_async := fun port => Ret (session port false all_supported);
     create_connection := fun ip port => Raise (Exception_ "timed out");
     socket_async := fun url => Ret (session url false all_supported) |}.

(** A short drive: engine braking at 2000 RPM, one empty poll, then 3000 RPM. *)
Definition drive : list delivery :=
  [ (RPM, {| value := Some (Float 2000) |});
    (ACTUAL_ENGINE_PERCENT_TORQUE, {| value := Some (Int (-25)) |});
    (ENGINE_REF_TORQUE, {| value := None |});
    (ENGINE_REF_TORQUE, {| value := Some (Int 400) |});
    (RPM, {| value := Some (Float 3000) |}) ].

End Scenario.

(** ** Command registry entries *)

Module Registry.
Import Py Decoders.

(** The arguments of [OBDCommand(name, desc, command, _bytes, decoder,
    fast=...)]. *)
Record OBDCommand : Type := {
  name : string;
  desc : string;
  command : string;
  bytes : nat;
  decoder : list Message -> result (option Z);
  fast : bool
}.

Definition ACTUAL_ENGINE_PERCENT_TORQUE : OBDCommand :=
  {| name := "ACTUAL_ENGINE_PERCENT_TORQUE";
     desc := "Actual Engine Percent Torque";
     command := "0162";
     bytes := 1;
     decoder := decode_percent_torque;
     fast := true |}.

Definition ENGINE_REF_TORQUE : OBDCommand :=
  {| name := "ENGINE_REF_TORQUE";
     desc := "Engine Reference Torque";
     command := "0163";
     bytes := 2;
     decoder := decode_reference_torque;
     fast := true |}.

(** The two custom commands, in the order [main] registers them. *)
Definition custom_commands : list OBDCommand :=
  [ACTUAL_ENGINE_PERCENT_TORQUE; ENGINE_REF_TORQUE].

End Registry.

(** ** Observations on deliveries and traces *)

Module Observe.
Import Py Aggregator Discovery.

(** A delivery whose response carries a value. *)
Definition has_value (d : delivery) : bool :=
  match value (snd d) with
  | Some _ => true
  | None => false
  end.

(** A snapshot with its three fields set. *)
Definition complete (data : Data) : bool :=
  match data_RPM data, data_Torque_Percent data,
        data_Reference_Torque data with
  | Some _, Some _, Some _ => true
  | _, _, _ => false
  end.

Definition is_print (ev : event) : bool :=
  match ev with
  | Print _ => true
  | _ => false
  end.

(** The events of discovery: log lines and the calls that probe a
    transport. *)
Definition discovery_event (ev : event) : bool :=
  match ev with
  | Print _ | SerialAsync _ | CreateConnection _ _
  | SocketClose _ _ | SocketAsync _ => true
  | _ => false
  end.

Definition is_create_connection (ev : event) : bool :=
  match ev with
  | CreateConnection _ _ => true
  | _ => false
  end.

Definition is_socket_close (ev : event) : bool :=
  match ev with
  | SocketClose _ _ => true
  | _ => false
  end.

Definition is_socket_async (ev : event) : bool :=
  match ev with
  | SocketAsync _ => true
  | _ => false
  end.

Definition is_start (ev : event) : bool :=
  match ev with
  | Start => true
  | _ => false
  end.

Definition is_stop (ev : event) : bool :=
  match ev with
  | Stop => true
  | _ => false
  end.

(** How many events of a trace satisfy [p]. *)
Definition count (p : event -> bool) (t : list event) : nat :=
  List.length (filter p t).

(** A probe that ends in an exception which [except Exception] lets
    through. *)
Definition aborts (w : World) (c : candidate) : option exn :=
  match probe w c with
  | Raise e => if is_Exception e then None else Some e
  | Ret _ => None
  end.

End Observe.

(** ** Further scenarios *)

Module Roadside.
Import Py Aggregator Discovery.

(** The first serial device cannot be opened; the operator interrupts
    the program while the second one is being probed. *)
Definition interrupted : World :=
  {| comports := ["/dev/ttyUSB0"; "/dev/rfcomm0"];
     serial_async := fun port =>
       if String.eqb port "/dev/ttyUSB0"
       then Raise (Exception_ "could not open port")
       else Raise KeyboardInterrupt;
     create_connection := fun ip port => Ret tt;
     socket_async := fun url => Ret (Scenario.session url true
                                                      Scenario.all_supported) |}.

(** A snapshot with every field set. *)
Definition warm : Data :=
  {| data_RPM := Some (Float 1500);
     data_Torque_Percent := Some (Int 10);
     data_Reference_Torque := Some (Int 400) |}.

End Roadside.

(** ** The report as the specification words it *)

Module Report.
Import Py Console Aggregator.

(** The three-line report and its separator for a complete snapshot,
    written out from the two formulas of the specification: nothing here
    goes through [process_data] or the assignments it makes. *)
Definition spec_report (rpm tp rt : num) : list event :=
  let ActualTorqueNm := spec_ActualTorqueNm (to_float tp) (to_float rt) in
  let HorsepowerHP := spec_HorsepowerHP ActualTorqueNm (to_float rpm) in
  [ Print ("RPM: " ++ format_2f rpm ++ " RPM");
    Print ("Torque: " ++ format_2f_float ActualTorqueNm ++ " Nm");
    Print ("Horsepower: " ++ format_2f_float HorsepowerHP ++ " HP");
    Print "------------------------------" ].

(** What the delivery [d] must add to the output after the deliveries
    [ds]: nothing when [d] is null or when one of the three commands has
    not delivered a value yet; otherwise one report, from the most recent
    value of each command. *)
Definition spec_report_due (ds : list delivery) (d : delivery)
  : list event :=
  match value (snd d) with
  | None => []
  | Some _ =>
      match latest RPM (ds ++ [d]) None,
            latest ACTUAL_ENGINE_PERCENT_TORQUE (ds ++ [d]) None,
            latest ENGINE_REF_TORQUE (ds ++ [d]) None with
      | Some rpm, Some tp, Some rt => spec_report rpm tp rt
      | _, _, _ => []
      end
  end.

End Report.

(** * Properties *)

Import Py Console Prog Decoders Aggregator Discovery Program.

(** ** Torque decoders *)

Section DecoderFacts.

Lemma bytes_to_int_range (b : byte) : 0 <= bytes_to_int b <= 255.
Proof.
  destruct b; vm_compute; split; discriminate.
Qed.

(** C4. On a non-empty message sequence whose first message carries at
    least one data byte [a], the percent-torque decoder returns
    [a - 125] with [a] read unsigned; the result lies in [-125, 130],
    and 130 is reached (byte 255), so the top of the range is not
    clamped to 125. *)
Theorem decode_percent_torque_spec :
  (forall (a : byte) (rest : list byte) (more : list Message),
      decode_percent_torque ({| data := a :: rest |} :: more)
      = Ret (Some (bytes_to_int a - 125))
      /\ -125 <= bytes_to_int a - 125 <= 130)
  /\ decode_percent_torque [{| data := [xff] |}] = Ret (Some 130)
  /\ decode_percent_torque [{| data := [x00] |}] = Ret (Some (-125)).
Proof.
  split; [| split; reflexivity].
  intros a rest more. split; [reflexivity |].
  pose proof (bytes_to_int_range a). lia.
Qed.

(** C5. On a non-empty message sequence whose first message carries at
    least two data bytes [a], [b], the reference-torque decoder returns
    [a * 256 + b] with both read unsigned; the result lies in
    [0, 65535]. *)
Theorem decode_reference_torque_spec :
  forall (a b : byte) (rest : list byte) (more : list Message),
    decode_reference_torque ({| data := a :: b :: rest |} :: more)
    = Ret (Some (bytes_to_int a * 256 + bytes_to_int b))
    /\ 0 <= bytes_to_int a * 256 + bytes_to_int b <= 65535.
Proof.
  intros a b rest more. split.
  - cbn [decode_reference_torque getitem nth_error data Py.bind].
    rewrite Z.shiftl_mul_pow2 by lia. reflexivity.
  - pose proof (bytes_to_int_range a). pose proof (bytes_to_int_range b).
    lia.
Qed.

(** C6. Applied to the empty message sequence both decoders return the
    "no data" value [None]; they do not raise. Being functions of their
    argument alone, they are pure. *)
Theorem decoders_empty_no_data :
  decode_percent_torque [] = Ret None
  /\ decode_reference_torque [] = Ret None.
Proof. split; reflexivity. Qed.

(** C10. A non-empty message sequence whose first message has exactly
    one data byte makes the reference-torque decoder raise [IndexError]:
    its guard covers the empty sequence only. *)
Theorem decode_reference_torque_short_payload :
  forall (a : byte) (more : list Message),
    decode_reference_torque ({| data := [a] |} :: more) = Raise IndexError.
Proof. intros a more. reflexivity. Qed.

End DecoderFacts.

(** ** Horsepower calculator *)

Section CalculatorFacts.

Lemma float_of_Z_7127 : float_of_Z 7127 = 7127%float.
Proof. vm_compute. reflexivity. Qed.

Lemma actual_torque_nm_float (tp rt : num) :
  actual_torque_nm tp rt
  = Float (spec_ActualTorqueNm (to_float tp) (to_float rt)).
Proof.
  unfold actual_torque_nm, spec_ActualTorqueNm, truediv.
  destruct rt; reflexivity.
Qed.

Lemma horsepower_float (a : float) (rpm : num) :
  horsepower (Float a) rpm = Float (spec_HorsepowerHP a (to_float rpm)).
Proof.
  unfold horsepower, spec_HorsepowerHP, truediv.
  destruct rpm; cbn [mul to_float]; rewrite float_of_Z_7127; reflexivity.
Qed.

(** C1. On a complete snapshot the calculator reports
    ActualTorqueNm = (TorquePercent / 100.0) * ReferenceTorqueNm and
    HorsepowerHP = (ActualTorqueNm * RPM) / 7127.0, whatever the three
    numbers are: a negative percent torque goes through the same two
    formulas (-25 % of 400 Nm at 2000 RPM is reported as -100.00 Nm and
    -28.06 HP). *)
Theorem process_data_formula :
  (forall rpm tp rt : num,
      let actual := spec_ActualTorqueNm (to_float tp) (to_float rt) in
      let hp := spec_HorsepowerHP actual (to_float rpm) in
      process_data {| data_RPM := Some rpm;
                      data_Torque_Percent := Some tp;
                      data_Reference_Torque := Some rt |}
      = report_lines rpm (Float actual) (Float hp))
  /\ process_data {| data_RPM := Some (Float 2000);
                     data_Torque_Percent := Some (Int (-25));
                     data_Reference_Torque := Some (Int 400) |}
     = [ Print "RPM: 2000.00 RPM"; Print "Torque: -100.00 Nm";
         Print "Horsepower: -28.06 HP";
         Print "------------------------------" ].
Proof.
  split.
  - intros rpm tp rt actual hp.
    unfold process_data; cbn [data_RPM data_Torque_Percent data_Reference_Torque].
    rewrite actual_torque_nm_float, horsepower_float. reflexivity.
  - vm_compute. reflexivity.
Qed.

End CalculatorFacts.

(** ** Self-test *)

Section SelfTestFacts.

(** C2, as the code has it. With the single flag [--self-test] the
    program prints the fixed-input calculation and nothing else happens:
    the trace holds print events only. The derived values are
    150.00 Nm and 63.14 HP (150 * 3000 / 7127 = 63.1401...). *)
Theorem self_test_output :
  forall (prog_name : string) (w : World) (deliveries : list delivery),
    script [prog_name; "--self-test"] w deliveries
    = ([ Print "Self-test results:";
         Print "RPM: 3000.00 RPM";
         Print "Torque Percent: 50.00%";
         Print "Reference Torque: 300.00 Nm";
         Print "Actual Torque: 150.00 Nm";
         Print "Horsepower: 63.14 HP" ], Ret tt).
Proof.
  intros prog_name w deliveries.
  unfold script. cbn [List.length List.nth Z.of_nat].
  vm_compute. reflexivity.
Qed.

(** C2, as the specification words it, fails: the horsepower line of the
    self-test reads 63.14, and no line reads 63.17. *)
Lemma self_test_not_63_17 :
  In (Print "Horsepower: 63.14 HP") (trace self_test)
  /\ ~ In (Print "Horsepower: 63.17 HP") (trace self_test).
Proof.
  split.
  - vm_compute. tauto.
  - vm_compute. intros H.
    repeat (destruct H as [H | H]; [discriminate H |]). exact H.
Qed.

End SelfTestFacts.

(** ** Telemetry aggregator *)

Section AggregatorFacts.
Local Open Scope list_scope.

Lemma latest_snoc (cmd : command) (ds : list delivery) (d : delivery) :
  forall seen,
    latest cmd (ds ++ [d]) seen
    = if command_eqb (fst d) cmd
      then match value (snd d) with
           | Some v => Some v
           | None => latest cmd ds seen
           end
      else latest cmd ds seen.
Proof.
  induction ds as [| [c r] ds IH]; intros seen.
  - destruct d as [c r]. reflexivity.
  - cbn [app latest]. apply IH.
Qed.

Lemma deliver_data (data : Data) (d : delivery) :
  fst (deliver data d) = snapshot_after data [d].
Proof.
  destruct data as [r t q], d as [c [v]].
  destruct c, v; reflexivity.
Qed.

Lemma poll_data (ds : list delivery) :
  forall data, fst (poll data ds) = snapshot_after data ds.
Proof.
  induction ds as [| d ds IH]; intros data.
  - destruct data; reflexivity.
  - cbn [poll].
    destruct (deliver data d) as [data1 out1] eqn:Hd.
    specialize (IH data1).
    destruct (poll data1 ds) as [data2 out2]. cbn [fst] in *.
    rewrite IH.
    replace data1 with (fst (deliver data d)) by (rewrite Hd; reflexivity).
    rewrite deliver_data.
    destruct d as [c r]. reflexivity.
Qed.

Lemma poll_snoc (ds : list delivery) (d : delivery) :
  forall data,
    snd (poll data (ds ++ [d]))
    = snd (poll data ds) ++ snd (deliver (fst (poll data ds)) d).
Proof.
  induction ds as [| x ds IH]; intros data.
  - cbn [app poll fst snd].
    destruct (deliver data d) as [data1 out1]. cbn. apply app_nil_r.
  - cbn [app poll].
    destruct (deliver data x) as [data1 out1].
    specialize (IH data1).
    destruct (poll data1 (ds ++ [d])) as [data2 out2].
    destruct (poll data1 ds) as [data3 out3].
    cbn [fst snd] in *. rewrite IH. apply app_assoc.
Qed.

(** What one callback prints, from the snapshot it leaves behind. *)
Lemma deliver_output (data : Data) (d : delivery) :
  snd (deliver data d)
  = match value (snd d) with
    | None => []
    | Some _ => process_data (fst (deliver data d))
    end.
Proof.
  destruct d as [c [v]]. destruct c, v; reflexivity.
Qed.

Lemma snapshot_after_snoc (data : Data) (ds : list delivery) (d : delivery) :
  fst (deliver (snapshot_after data ds) d) = snapshot_after data (ds ++ [d]).
Proof.
  rewrite deliver_data. unfold snapshot_after.
  rewrite !latest_snoc.
  destruct d as [c [v]].
  destruct c, v; reflexivity.
Qed.

Lemma report_due_process (ds : list delivery) (d : delivery) :
  report_due ds d
  = match value (snd d) with
    | None => []
    | Some _ => process_data (snapshot_after initial_data (ds ++ [d]))
    end.
Proof.
  unfold report_due, process_data, snapshot_after, initial_data.
  cbn [data_RPM data_Torque_Percent data_Reference_Torque].
  reflexivity.
Qed.

Lemma poll_step (ds : list delivery) (d : delivery) :
  snd (poll initial_data (ds ++ [d]))
  = snd (poll initial_data ds) ++ report_due ds d.
Proof.
  rewrite poll_snoc, deliver_output, poll_data, snapshot_after_snoc.
  rewrite report_due_process. reflexivity.
Qed.

Lemma latest_unset_prefix (cmd : command) (ds : list delivery) (d : delivery) :
  latest cmd (ds ++ [d]) None = None -> latest cmd ds None = None.
Proof.
  rewrite latest_snoc.
  destruct (command_eqb (fst d) cmd); [destruct (value (snd d)) |];
    intros H; try discriminate H; exact H.
Qed.

Lemma report_due_incomplete (ds : list delivery) (d : delivery) :
  latest RPM (ds ++ [d]) None = None
  \/ latest ACTUAL_ENGINE_PERCENT_TORQUE (ds ++ [d]) None = None
  \/ latest ENGINE_REF_TORQUE (ds ++ [d]) None = None ->
  report_due ds d = [].
Proof.
  unfold report_due. intros [H | [H | H]]; rewrite H.
  - destruct (value (snd d)); reflexivity.
  - destruct (value (snd d)); [| reflexivity].
    destruct (latest RPM (ds ++ [d]) None); reflexivity.
  - destruct (value (snd d)); [| reflexivity].
    destruct (latest RPM (ds ++ [d]) None);
      [destruct (latest ACTUAL_ENGINE_PERCENT_TORQUE (ds ++ [d]) None) |];
      reflexivity.
Qed.

Lemma silent_until_complete (ds : list delivery) :
  latest RPM ds None = None
  \/ latest ACTUAL_ENGINE_PERCENT_TORQUE ds None = None
  \/ latest ENGINE_REF_TORQUE ds None = None ->
  snd (poll initial_data ds) = [].
Proof.
  induction ds as [| d ds IH] using rev_ind; intros H.
  - reflexivity.
  - rewrite poll_step, (report_due_incomplete _ _ H), app_nil_r.
    apply IH.
    destruct H as [H | [H | H]]; apply latest_unset_prefix in H; tauto.
Qed.

Lemma report_lines_spec (rpm tp rt : num) :
  report_lines rpm (actual_torque_nm tp rt)
               (horsepower (actual_torque_nm tp rt) rpm)
  = Report.spec_report rpm tp rt.
Proof.
  rewrite actual_torque_nm_float, horsepower_float. reflexivity.
Qed.

Lemma report_due_spec (ds : list delivery) (d : delivery) :
  report_due ds d = Report.spec_report_due ds d.
Proof.
  unfold report_due, Report.spec_report_due.
  destruct (value (snd d)); [| reflexivity].
  destruct (latest RPM (ds ++ [d]) None) as [rpm |]; [| reflexivity].
  destruct (latest ACTUAL_ENGINE_PERCENT_TORQUE (ds ++ [d]) None)
    as [tp |]; [| reflexivity].
  destruct (latest ENGINE_REF_TORQUE (ds ++ [d]) None) as [rt |];
    [| reflexivity].
  apply report_lines_spec.
Qed.

(** C3. For every sequence of callback deliveries [ds], starting from
    the all-unset snapshot: each field holds the most recent non-null
    value delivered for it; nothing is printed as long as one of the
    three fields has never been set; a null delivery prints nothing; and
    once the three fields are set, a delivery [d] with a value prints
    exactly one report, the four lines written out below, whose torque
    and horsepower are the specification's formulas at the most recent
    value of each field. On the scenario of the specification: RPM alone
    prints nothing, percent torque and then reference torque give one
    report with the RPM seen last, and a new RPM gives a second report
    with the torque unchanged. *)
Theorem aggregator_reports :
  (forall ds : list delivery,
      fst (poll initial_data ds)
      = {| data_RPM := latest RPM ds None;
           data_Torque_Percent := latest ACTUAL_ENGINE_PERCENT_TORQUE ds None;
           data_Reference_Torque := latest ENGINE_REF_TORQUE ds None |}
      /\ (latest RPM ds None = None
          \/ latest ACTUAL_ENGINE_PERCENT_TORQUE ds None = None
          \/ latest ENGINE_REF_TORQUE ds None = None ->
          snd (poll initial_data ds) = [])
      /\ (forall d : delivery,
             snd (poll initial_data (ds ++ [d]))
             = snd (poll initial_data ds) ++ Report.spec_report_due ds d)
      /\ (forall d : delivery,
             value (snd d) = None ->
             snd (poll initial_data (ds ++ [d])) = snd (poll initial_data ds))
      /\ (forall (d : delivery) (v rpm tp rt : num),
             value (snd d) = Some v ->
             latest RPM (ds ++ [d]) None = Some rpm ->
             latest ACTUAL_ENGINE_PERCENT_TORQUE (ds ++ [d]) None = Some tp ->
             latest ENGINE_REF_TORQUE (ds ++ [d]) None = Some rt ->
             snd (poll initial_data (ds ++ [d]))
             = snd (poll initial_data ds)
               ++ [ Print ("RPM: " ++ format_2f rpm ++ " RPM");
                    Print ("Torque: "
                           ++ format_2f_float
                                (PrimFloat.mul
                                   (PrimFloat.div (to_float tp) 100%float)
                                   (to_float rt))
                           ++ " Nm");
                    Print ("Horsepower: "
                           ++ format_2f_float
                                (PrimFloat.div
                                   (PrimFloat.mul
                                      (PrimFloat.mul
                                         (PrimFloat.div (to_float tp)
                                                        100%float)
                                         (to_float rt))
                                      (to_float rpm))
                                   7127%float)
                           ++ " HP");
                    Print "------------------------------" ]))
  /\ (let rpm1 := (RPM, {| value := Some (Float 2000) |}) in
      let tp := (ACTUAL_ENGINE_PERCENT_TORQUE,
                 {| value := Some (Int 50) |}) in
      let rt := (ENGINE_REF_TORQUE, {| value := Some (Int 300) |}) in
      let rpm2 := (RPM, {| value := Some (Float 3000) |}) in
      snd (poll initial_data [rpm1]) = []
      /\ snd (poll initial_data [rpm1; tp]) = []
      /\ snd (poll initial_data [rpm1; tp; rt])
         = [ Print "RPM: 2000.00 RPM"; Print "Torque: 150.00 Nm";
             Print "Horsepower: 42.09 HP";
             Print "------------------------------" ]
      /\ snd (poll initial_data [rpm1; tp; rt; rpm2])
         = [ Print "RPM: 2000.00 RPM"; Print "Torque: 150.00 Nm";
             Print "Horsepower: 42.09 HP";
             Print "------------------------------";
             Print "RPM: 3000.00 RPM"; Print "Torque: 150.00 Nm";
             Print "Horsepower: 63.14 HP";
             Print "------------------------------" ]).
Proof.
  split.
  - intros ds. split; [| split; [| split; [| split]]].
    + apply poll_data.
    + apply silent_until_complete.
    + intros d. rewrite poll_step, report_due_spec. reflexivity.
    + intros d Hv. rewrite poll_step, report_due_spec.
      unfold Report.spec_report_due. rewrite Hv. apply app_nil_r.
    + intros d v rpm tp rt Hv Hr Ht Hq.
      rewrite poll_step, report_due_spec.
      unfold Report.spec_report_due. rewrite Hv, Hr, Ht, Hq. reflexivity.
  - vm_compute. repeat split.
Qed.

End AggregatorFacts.

(** ** Effectful computations *)

Section ProgFacts.
Local Open Scope list_scope.

Lemma bind_assoc {A B C} (m : prog A) (f : A -> prog B) (g : B -> prog C) :
  Prog.bind (Prog.bind m f) g = Prog.bind m (fun a => Prog.bind (f a) g).
Proof.
  destruct m as [t [a | e]]; cbn; [| reflexivity].
  destruct (f a) as [t1 [b | e1]]; cbn; [| reflexivity].
  destruct (g b) as [t2 r2]. rewrite app_assoc. reflexivity.
Qed.

Lemma trace_bind {A B} (m : prog A) (k : A -> prog B) :
  trace (Prog.bind m k)
  = trace m ++ match outcome m with
               | Ret a => trace (k a)
               | Raise _ => []
               end.
Proof.
  destruct m as [t [a | e]]; cbn.
  - destruct (k a); reflexivity.
  - symmetry. apply app_nil_r.
Qed.

Lemma outcome_bind {A B} (m : prog A) (k : A -> prog B) :
  outcome (Prog.bind m k)
  = match outcome m with
    | Ret a => outcome (k a)
    | Raise e => Raise e
    end.
Proof.
  destruct m as [t [a | e]]; cbn; [destruct (k a) |]; reflexivity.
Qed.

Lemma probed_app (t t' : list event) :
  probed (t ++ t') = probed t ++ probed t'.
Proof. apply flat_map_app. Qed.

End ProgFacts.

(** ** Connection discovery *)

Section DiscoveryFacts.
Local Open Scope list_scope.
Variable w : World.

(** The two loops of [connect_obd] are the ordered try loop over
    [candidates]. *)
Lemma serial_loop_attempt_all (ports : list string) :
  serial_loop w ports = attempt_all w (map Serial ports).
Proof.
  induction ports as [| port rest IH]; [reflexivity |].
  cbn [serial_loop map attempt_all attempt]. rewrite IH. reflexivity.
Qed.

Lemma wifi_loop_attempt_all (addresses : list (string * Z)) :
  wifi_loop w addresses
  = attempt_all w (map (fun a => Wifi (fst a) (snd a)) addresses).
Proof.
  induction addresses as [| [ip port] rest IH]; [reflexivity |].
  cbn [wifi_loop map attempt_all attempt fst snd]. rewrite IH. reflexivity.
Qed.

Lemma attempt_all_app (l1 l2 : list candidate) :
  attempt_all w (l1 ++ l2)
  = (r <-- attempt_all w l1 ;;
     match r with
     | Some connection => ret (Some connection)
     | None => attempt_all w l2
     end).
Proof.
  induction l1 as [| c l1 IH].
  - cbn. destruct (attempt_all w l2). reflexivity.
  - cbn [app attempt_all]. rewrite IH, bind_assoc.
    destruct (attempt w c) as [t [[conn |] | e]]; reflexivity.
Qed.

Lemma connect_obd_attempt_all :
  connect_obd w
  = (print ("Available serial ports: " ++ repr_list (comports w))%string ;;;
     r <-- attempt_all w (candidates w) ;;
     match r with
     | Some connection => ret connection
     | None =>
         print "Could not connect to any OBD-II device." ;;;
         raise (SystemExit 1)
     end).
Proof.
  unfold connect_obd, candidates.
  rewrite attempt_all_app, serial_loop_attempt_all, wifi_loop_attempt_all.
  set (header := ("Available serial ports: " ++ repr_list (comports w))%string).
  set (serial := attempt_all w (map Serial (comports w))).
  set (wifi :=
         attempt_all w (map (fun a => Wifi (fst a) (snd a)) wifi_addresses)).
  clearbody header serial wifi.
  destruct serial as [t [[conn |] | e]], wifi as [t' [[conn' |] | e']];
    cbn; rewrite ?app_nil_r, ?app_assoc; reflexivity.
Qed.

(** A failing probe is swallowed: the loop body falls through, having
    probed its candidate and no other. *)
Lemma attempt_fails (c : candidate) :
  fails w c = true ->
  outcome (attempt w c) = Ret None /\ probed (trace (attempt w c)) = [c].
Proof.
  unfold fails, probe, attempt, serial_attempt, wifi_attempt.
  destruct c as [port | ip port].
  - destruct (serial_async w port) as [conn | e]; cbn.
    + destruct (is_connected conn); cbn; [intros H; discriminate H | auto].
    + intros ->. cbn. auto.
  - generalize (socket_url ip port) as url; intros url.
    destruct (create_connection w ip port) as [[] | e]; cbn.
    + destruct (socket_async w url) as [conn | e]; cbn.
      * destruct (is_connected conn); cbn; [intros H; discriminate H | auto].
      * intros ->. cbn. auto.
    + intros ->. cbn. auto.
Qed.

(** A probe that yields a connected session returns it. *)
Lemma attempt_live (c : candidate) (conn : Connection) :
  probe w c = Ret conn -> is_connected conn = true ->
  outcome (attempt w c) = Ret (Some conn)
  /\ probed (trace (attempt w c)) = [c].
Proof.
  unfold probe, attempt, serial_attempt, wifi_attempt.
  destruct c as [port | ip port].
  - intros -> Hc. cbn. rewrite Hc. cbn. auto.
  - generalize (socket_url ip port) as url; intros url.
    destruct (create_connection w ip port) as [[] | e]; cbn;
      [| intros H; discriminate H].
    intros -> Hc. cbn. rewrite Hc. cbn. auto.
Qed.

Lemma attempt_all_fail (cs : list candidate) :
  Forall (fun c => fails w c = true) cs ->
  outcome (attempt_all w cs) = Ret None
  /\ probed (trace (attempt_all w cs)) = cs.
Proof.
  induction 1 as [| c cs Hc _ [IHo IHt]]; [auto |].
  destruct (attempt_fails c Hc) as [Ho Ht].
  cbn [attempt_all]. rewrite outcome_bind, trace_bind, probed_app, Ho, Ht.
  rewrite IHo, IHt. auto.
Qed.

Lemma attempt_all_first_live (pre post : list candidate) (c : candidate)
      (conn : Connection) :
  Forall (fun c => fails w c = true) pre ->
  probe w c = Ret conn -> is_connected conn = true ->
  outcome (attempt_all w (pre ++ c :: post)) = Ret (Some conn)
  /\ probed (trace (attempt_all w (pre ++ c :: post))) = pre ++ [c].
Proof.
  intros Hpre Hp Hc.
  destruct (attempt_all_fail pre Hpre) as [Ho Ht].
  destruct (attempt_live c conn Hp Hc) as [Ho' Ht'].
  rewrite attempt_all_app, outcome_bind, trace_bind, probed_app, Ho, Ht.
  cbn [attempt_all]. rewrite outcome_bind, trace_bind, probed_app, Ho', Ht'.
  cbn. auto.
Qed.

End DiscoveryFacts.

Section DiscoveryClaim.
Local Open Scope list_scope.

Lemma probed_connect_obd (w : World) :
  probed (trace (connect_obd w)) = probed (trace (attempt_all w (candidates w))).
Proof.
  rewrite connect_obd_attempt_all, !trace_bind.
  destruct (outcome (attempt_all w (candidates w))) as [[conn |] | e];
    unfold probed; cbn; rewrite ?flat_map_app; cbn; rewrite ?app_nil_r;
    reflexivity.
Qed.

Lemma outcome_connect_obd (w : World) :
  outcome (connect_obd w)
  = match outcome (attempt_all w (candidates w)) with
    | Ret (Some conn) => Ret conn
    | Ret None => Raise (SystemExit 1)
    | Raise e => Raise e
    end.
Proof.
  rewrite connect_obd_attempt_all, !outcome_bind. cbn.
  destruct (outcome (attempt_all w (candidates w))) as [[conn |] | e];
    reflexivity.
Qed.

(** When discovery exits, so does the program, with the same status. *)
Lemma script_exits_with_connect_obd (w : World) (code : Z)
      (prog_name : string) (deliveries : list delivery) :
  outcome (connect_obd w) = Raise (SystemExit code) ->
  outcome (script [prog_name] w deliveries) = Raise (SystemExit code).
Proof.
  intros H. unfold script, asyncio_run, main. cbn [List.length Z.of_nat Z.ltb
    Z.compare Pos.of_succ_nat andb].
  destruct (connect_obd w) as [t r]. cbn in H. subst r. reflexivity.
Qed.

(** C7. Discovery goes through the serial candidates in enumeration
    order and then through the fixed list of four network endpoints. If
    the candidates before [c] all fail (a raised error or a session that
    is not connected) and [c] yields a connected session, that session is
    returned and the candidates probed are exactly those up to [c]:
    failures are swallowed and nothing is probed after the success. If
    every candidate fails, all of them are probed and the process exits
    with status 1. *)
Theorem connect_obd_discovery :
  forall w : World,
    candidates w
    = map Serial (comports w)
      ++ [ Wifi "192.168.0.10" 35000; Wifi "192.168.0.10" 23;
           Wifi "192.168.0.11" 35000; Wifi "192.168.0.123" 35000 ]
    /\ (forall (pre post : list candidate) (c : candidate)
               (conn : Connection),
           candidates w = pre ++ c :: post ->
           Forall (fun x => fails w x = true) pre ->
           probe w c = Ret conn ->
           is_connected conn = true ->
           outcome (connect_obd w) = Ret conn
           /\ probed (trace (connect_obd w)) = pre ++ [c])
    /\ (Forall (fun x => fails w x = true) (candidates w) ->
        outcome (connect_obd w) = Raise (SystemExit 1)
        /\ probed (trace (connect_obd w)) = candidates w
        /\ forall (prog_name : string) (deliveries : list delivery),
            exit_status (outcome (script [prog_name] w deliveries)) = 1).
Proof.
  intros w. split; [reflexivity | split].
  - intros pre post c conn Hsplit Hpre Hp Hc.
    destruct (attempt_all_first_live w pre post c conn Hpre Hp Hc)
      as [Ho Ht].
    rewrite outcome_connect_obd, probed_connect_obd, Hsplit, Ho, Ht. auto.
  - intros Hall.
    destruct (attempt_all_fail w (candidates w) Hall) as [Ho Ht].
    assert (Hexit : outcome (connect_obd w) = Raise (SystemExit 1))
      by (rewrite outcome_connect_obd, Ho; reflexivity).
    repeat split.
    + exact Hexit.
    + rewrite probed_connect_obd. exact Ht.
    + intros prog_name deliveries.
      rewrite (script_exits_with_connect_obd w 1 _ _ Hexit). reflexivity.
Qed.

(** The discovery scenario: both serial candidates fail, the first
    network endpoint is unreachable, the second one connects and is
    returned; the two endpoints after it are never probed. And where
    nothing answers, the process exits with status 1. *)
Lemma connect_obd_discovery_witness :
  (outcome (connect_obd (Scenario.garage Scenario.all_supported))
   = Ret (Scenario.session "socket://192.168.0.10:23" true
                           Scenario.all_supported)
   /\ probed (trace (connect_obd (Scenario.garage Scenario.all_supported)))
      = [ Serial "/dev/ttyUSB0"; Serial "/dev/rfcomm0";
          Wifi "192.168.0.10" 35000; Wifi "192.168.0.10" 23 ])
  /\ exit_status (outcome (script ["main.py"] Scenario.nowhere [])) = 1.
Proof.
  split.
  - apply (proj1 (proj2 (connect_obd_discovery
                           (Scenario.garage Scenario.all_supported)))
             [ Serial "/dev/ttyUSB0"; Serial "/dev/rfcomm0";
               Wifi "192.168.0.10" 35000 ]
             [ Wifi "192.168.0.11" 35000; Wifi "192.168.0.123" 35000 ]
             (Wifi "192.168.0.10" 23)).
    + reflexivity.
    + repeat constructor.
    + reflexivity.
    + reflexivity.
  - apply (proj2 (proj2 (connect_obd_discovery Scenario.nowhere))).
    repeat constructor.
Defined.

End DiscoveryClaim.

(** ** Capability gate and polling phase *)

Section MainFacts.
Local Open Scope list_scope.

Lemma bind_outcome_ret {A B} (m : prog A) (k : A -> prog B) (a : A) :
  outcome m = Ret a ->
  Prog.bind m k = (trace m ++ trace (k a), outcome (k a)).
Proof.
  destruct m as [t r]. cbn. intros ->. destruct (k a). reflexivity.
Qed.

Lemma attempt_quiet (w : World) (c : candidate) :
  existsb polls (trace (attempt w c)) = false.
Proof.
  unfold attempt, serial_attempt, wifi_attempt.
  destruct c as [port | ip port].
  - destruct (serial_async w port) as [conn | e]; cbn;
      [destruct (is_connected conn) | destruct (is_Exception e)];
      reflexivity.
  - generalize (socket_url ip port) as url; intros url.
    destruct (create_connection w ip port) as [[] | e]; cbn.
    + destruct (socket_async w url) as [conn | e]; cbn;
        [destruct (is_connected conn) | destruct (is_Exception e)];
        reflexivity.
    + destruct (is_Exception e); reflexivity.
Qed.

Lemma attempt_all_quiet (w : World) (cs : list candidate) :
  existsb polls (trace (attempt_all w cs)) = false.
Proof.
  induction cs as [| c cs IH]; [reflexivity |].
  cbn [attempt_all]. rewrite trace_bind, existsb_app, attempt_quiet.
  destruct (outcome (attempt w c)) as [[conn |] | e];
    [reflexivity | exact IH | reflexivity].
Qed.

(** Discovery neither subscribes nor polls. *)
Lemma connect_obd_quiet (w : World) :
  existsb polls (trace (connect_obd w)) = false.
Proof.
  rewrite connect_obd_attempt_all, trace_bind.
  cbn [print emit outcome trace fst snd].
  rewrite trace_bind, !existsb_app, attempt_all_quiet.
  destruct (outcome (attempt_all w (candidates w))) as [[conn |] | e];
    reflexivity.
Qed.

Lemma print_names_trace (cmds : list command) :
  print_names cmds
  = (map (fun cmd => Print ("- " ++ name cmd)) cmds, Ret tt).
Proof.
  induction cmds as [| cmd rest IH]; [reflexivity |].
  cbn [print_names map]. rewrite IH. reflexivity.
Qed.

(** The gate lets a session through exactly when it supports the three
    required commands. *)
Lemma capability_gate_pass (conn : Connection) :
  (forall cmd, In cmd required_commands -> supports conn cmd = true) ->
  capability_gate conn = ([], Ret tt).
Proof.
  intros H. unfold capability_gate, required_commands in *.
  cbn [filter].
  rewrite (H RPM), (H ACTUAL_ENGINE_PERCENT_TORQUE), (H ENGINE_REF_TORQUE)
    by (cbn; tauto).
  reflexivity.
Qed.

Lemma capability_gate_stop (conn : Connection) :
  (exists cmd, In cmd required_commands /\ supports conn cmd = false) ->
  capability_gate conn
  = (Print "The following required PIDs are not supported by your vehicle:"
       :: map (fun cmd => Print ("- " ++ name cmd))
              (filter (fun cmd => negb (supports conn cmd)) required_commands)
       ++ [Print "Cannot calculate horsepower based on RPM and Torque."],
     Raise (SystemExit 1)).
Proof.
  intros (cmd & Hin & Hno). unfold capability_gate.
  destruct (filter (fun c => negb (supports conn c)) required_commands)
    as [| c cs] eqn:Hf.
  - assert (Hc : In cmd
                    (filter (fun c => negb (supports conn c)) required_commands))
      by (apply filter_In; rewrite Hno; auto).
    rewrite Hf in Hc. destruct Hc.
  - rewrite print_names_trace. reflexivity.
Qed.

Lemma prints_quiet {A} (f : A -> string) (xs : list A) :
  existsb polls (map (fun x => Print (f x)) xs) = false.
Proof. induction xs as [| x xs IH]; [reflexivity | exact IH]. Qed.

(** [main] when the session lacks a required command. *)
Lemma main_gate_stop (w : World) (ds : list delivery) (thrown : exn)
      (conn : Connection) :
  outcome (connect_obd w) = Ret conn ->
  (exists cmd, In cmd required_commands /\ supports conn cmd = false) ->
  main w ds thrown
  = (trace (connect_obd w)
       ++ [ AddCustom ACTUAL_ENGINE_PERCENT_TORQUE;
            AddCustom ENGINE_REF_TORQUE;
            Print "The following required PIDs are not supported by your vehicle:" ]
       ++ map (fun cmd => Print ("- " ++ name cmd))
              (filter (fun cmd => negb (supports conn cmd)) required_commands)
       ++ [Print "Cannot calculate horsepower based on RPM and Torque."],
     Raise (SystemExit 1)).
Proof.
  intros Hconn Hno. unfold main.
  rewrite (bind_outcome_ret _ _ conn Hconn), (capability_gate_stop conn Hno).
  reflexivity.
Qed.

(** [main] when the session supports the three commands: subscribe, poll
    until [thrown] ends the wait, stop. *)
Lemma main_polling (w : World) (ds : list delivery) (thrown : exn)
      (conn : Connection) :
  outcome (connect_obd w) = Ret conn ->
  (forall cmd, In cmd required_commands -> supports conn cmd = true) ->
  main w ds thrown
  = (trace (connect_obd w)
       ++ [ AddCustom ACTUAL_ENGINE_PERCENT_TORQUE;
            AddCustom ENGINE_REF_TORQUE;
            Watch RPM; Watch ACTUAL_ENGINE_PERCENT_TORQUE;
            Watch ENGINE_REF_TORQUE; SetPollInterval poll_interval; Start ]
       ++ snd (poll initial_data ds)
       ++ match thrown with
          | KeyboardInterrupt => [Print "Stopping..."; Stop]
          | _ => [Stop]
          end,
     match thrown with
     | KeyboardInterrupt => Ret tt
     | _ => Raise thrown
     end).
Proof.
  intros Hconn Hall. unfold main.
  rewrite (bind_outcome_ret _ _ conn Hconn), (capability_gate_pass conn Hall).
  generalize (snd (poll initial_data ds)) as out; intros out.
  destruct thrown; cbn; rewrite ?app_nil_r, <- ?app_assoc; reflexivity.
Qed.

End MainFacts.

Section CapabilityClaim.
Local Open Scope list_scope.



End CapabilityClaim.

Section InterruptClaim.
Local Open Scope list_scope.

(** C9, on the code. With a connected session that supports the three
    commands, polling is stopped on every way out of the polling phase:
    whatever exception ends the wait, the last event of [main] is the
    call of [connection.stop()]. A [KeyboardInterrupt] raised at the
    [await] would be caught and the program would end with status 0. But
    under [asyncio.run] the operator's interrupt reaches [main] as a
    cancellation: the handler for [KeyboardInterrupt] is skipped (no
    "Stopping..." line), polling is stopped, and the interrupt leaves
    [asyncio.run] uncaught, so the exit status is 130, not 0. *)
Theorem interrupt_stops_polling_exit_status :
  forall (w : World) (ds : list delivery) (conn : Connection),
    outcome (connect_obd w) = Ret conn ->
    (forall cmd, In cmd required_commands -> supports conn cmd = true) ->
    let started :=
      trace (connect_obd w)
      ++ [ AddCustom ACTUAL_ENGINE_PERCENT_TORQUE;
           AddCustom ENGINE_REF_TORQUE;
           Watch RPM; Watch ACTUAL_ENGINE_PERCENT_TORQUE;
           Watch ENGINE_REF_TORQUE; SetPollInterval poll_interval; Start ]
      ++ snd (poll initial_data ds) in
    (forall thrown : exn,
        exists t, trace (main w ds thrown) = t ++ [Stop])
    /\ main w ds KeyboardInterrupt
       = (started ++ [Print "Stopping..."; Stop], Ret tt)
    /\ exit_status (outcome (main w ds KeyboardInterrupt)) = 0
    /\ (forall prog_name : string,
           script [prog_name] w ds
           = (started ++ [Stop], Raise KeyboardInterrupt)
           /\ exit_status (outcome (script [prog_name] w ds)) = 130).
Proof.
  intros w ds conn Hconn Hall started.
  split; [| split; [| split]].
  - intros thrown. rewrite (main_polling w ds thrown conn Hconn Hall).
    cbn [trace fst].
    destruct thrown;
      try (exists started; unfold started; rewrite <- !app_assoc;
           reflexivity).
    exists (started ++ [Print "Stopping..."]).
    unfold started. rewrite <- !app_assoc. reflexivity.
  - rewrite (main_polling w ds KeyboardInterrupt conn Hconn Hall).
    unfold started. rewrite <- !app_assoc. reflexivity.
  - rewrite (main_polling w ds KeyboardInterrupt conn Hconn Hall).
    reflexivity.
  - intros prog_name. unfold script, asyncio_run.
    cbn [List.length Z.of_nat Z.ltb Z.compare Pos.of_succ_nat andb].
    rewrite (main_polling w ds CancelledError conn Hconn Hall).
    unfold started. rewrite <- !app_assoc. split; reflexivity.
Qed.

(** An interrupted drive: two reports were printed, polling is stopped,
    and the process ends with status 130. *)
Lemma interrupt_stops_polling_exit_status_witness :
  let w := Scenario.garage Scenario.all_supported in
  exit_status (outcome (script ["main.py"] w Scenario.drive)) = 130
  /\ exists t, trace (main w Scenario.drive CancelledError) = t ++ [Stop].
Proof.
  intros w.
  assert (Hconn : outcome (connect_obd w)
                  = Ret (Scenario.session "socket://192.168.0.10:23" true
                                          Scenario.all_supported))
    by reflexivity.
  destruct (interrupt_stops_polling_exit_status w Scenario.drive _ Hconn
              (fun cmd _ => eq_refl)) as (Hstop & _ & _ & Hrun).
  split; [apply (Hrun "main.py") | apply Hstop].
Defined.

End InterruptClaim.

(** * Further properties *)

Import Observe.

(** ** Decoders: what the result retains, and the declared lengths *)

Section DecoderCases.
Local Open Scope list_scope.

Lemma byte_of_bytes_to_int (b : byte) :
  Byte.of_N (Z.to_N (bytes_to_int b)) = Some b.
Proof.
  unfold bytes_to_int. rewrite N2Z.id. apply Byte.of_to_N.
Qed.

(** X3. Decoding loses nothing of the bytes it reads: the first byte is
    recovered from a percent-torque value by adding 125, and the two
    bytes from a reference-torque value as its quotient and remainder
    by 256. *)
Theorem decoders_retain_bytes :
  forall (a b : byte) (rest : list byte) (more : list Message),
    (exists v,
        decode_percent_torque ({| data := a :: rest |} :: more)
        = Ret (Some v)
        /\ Byte.of_N (Z.to_N (v + 125)) = Some a)
    /\ (exists v,
           decode_reference_torque ({| data := a :: b :: rest |} :: more)
           = Ret (Some v)
           /\ Byte.of_N (Z.to_N (v / 256)) = Some a
           /\ Byte.of_N (Z.to_N (v mod 256)) = Some b).
Proof.
  intros a b rest more.
  pose proof (bytes_to_int_range a) as Ha.
  pose proof (bytes_to_int_range b) as Hb.
  split.
  - exists (bytes_to_int a - 125). split; [reflexivity |].
    replace (bytes_to_int a - 125 + 125) with (bytes_to_int a) by lia.
    apply byte_of_bytes_to_int.
  - exists (bytes_to_int a * 256 + bytes_to_int b). split; [| split].
    + cbn [decode_reference_torque getitem nth_error data Py.bind].
      rewrite Z.shiftl_mul_pow2 by lia. reflexivity.
    + rewrite Z.div_add_l by lia. rewrite Z.div_small by lia.
      rewrite Z.add_0_r. apply byte_of_bytes_to_int.
    + rewrite Z.add_comm, Z.mod_add by lia. rewrite Z.mod_small by lia.
      apply byte_of_bytes_to_int.
Qed.

(** X4. Each custom command declares as many response bytes as its
    decoder reads: on a first message with at least that many data bytes
    the decoder returns a value, and on one with a byte less it raises. *)
Theorem declared_bytes_suffice :
  forall cmd : Registry.OBDCommand,
    In cmd Registry.custom_commands ->
    (forall (msg : Message) (more : list Message),
        (Registry.bytes cmd <= List.length (data msg))%nat ->
        exists v, Registry.decoder cmd (msg :: more) = Ret (Some v))
    /\ (forall (msg : Message) (more : list Message),
           (S (List.length (data msg)) = Registry.bytes cmd)%nat ->
           Registry.decoder cmd (msg :: more) = Raise IndexError).
Proof.
  intros cmd [<- | [<- | []]]; cbn [Registry.bytes Registry.decoder
    Registry.ACTUAL_ENGINE_PERCENT_TORQUE Registry.ENGINE_REF_TORQUE].
  - split; intros [[| a rest]] more H; cbn in H; try lia.
    + eexists. reflexivity.
    + reflexivity.
  - split; intros [[| a [| b rest]]] more H; cbn in H; try lia.
    + eexists. reflexivity.
    + reflexivity.
Qed.

(** Both custom commands at payloads of the declared length. *)
Lemma declared_bytes_suffice_witness :
  (exists v,
      Registry.decoder Registry.ENGINE_REF_TORQUE [{| data := [x01; x2c] |}]
      = Ret (Some v))
  /\ Registry.decoder Registry.ENGINE_REF_TORQUE [{| data := [x01] |}]
     = Raise IndexError.
Proof.
  assert (Hin : In Registry.ENGINE_REF_TORQUE Registry.custom_commands)
    by (cbn; tauto).
  destruct (declared_bytes_suffice Registry.ENGINE_REF_TORQUE Hin)
    as [Hok Hshort].
  split.
  - apply (Hok {| data := [x01; x2c] |} []). cbn. lia.
  - apply (Hshort {| data := [x01] |} []). reflexivity.
Defined.

End DecoderCases.

(** ** Aggregator: null results, counting, order *)

Section AggregatorMore.
Local Open Scope list_scope.

Lemma deliver_null (data : Data) (d : delivery) :
  has_value d = false -> deliver data d = (data, []).
Proof.
  destruct d as [c [[v |]]]; cbn; [discriminate |].
  intros _. destruct c; reflexivity.
Qed.

Lemma deliver_complete (data : Data) (d : delivery) :
  complete data = true ->
  complete (fst (deliver data d)) = true
  /\ List.length (snd (deliver data d))
     = if has_value d then 4%nat else 0%nat.
Proof.
  destruct data as [[r |] [t |] [q |]]; cbn; try discriminate.
  intros _. destruct d as [c [[v |]]]; destruct c; cbn; auto.
Qed.

(** X6. Null results leave no trace: dropping the deliveries without a
    value from a sequence changes neither the final snapshot nor what is
    printed. *)
Theorem poll_ignores_null :
  forall (data : Data) (ds : list delivery),
    poll data ds = poll data (filter has_value ds).
Proof.
  intros data ds. revert data.
  induction ds as [| d ds IH]; intros data; [reflexivity |].
  cbn [filter]. destruct (has_value d) eqn:Hd.
  - cbn [poll]. destruct (deliver data d) as [data1 out1].
    rewrite (IH data1). reflexivity.
  - cbn [poll]. rewrite (deliver_null data d Hd), (IH data).
    destruct (poll data (filter has_value ds)). reflexivity.
Qed.

(** X7. From a complete snapshot the aggregator stays complete (no field
    is ever reset) and prints one four-line report for each delivery that
    carries a value, and nothing else. *)
Theorem complete_stays_complete :
  forall (data : Data) (ds : list delivery),
    complete data = true ->
    complete (fst (poll data ds)) = true
    /\ List.length (snd (poll data ds))
       = (4 * List.length (filter has_value ds))%nat.
Proof.
  intros data ds. revert data.
  induction ds as [| d ds IH]; intros data Hc; [auto |].
  destruct (deliver_complete data d Hc) as [Hc1 Hn1].
  cbn [poll filter].
  destruct (deliver data d) as [data1 out1]. cbn [fst snd] in *.
  destruct (IH data1 Hc1) as [Hc2 Hn2].
  destruct (poll data1 ds) as [data2 out2]. cbn [fst snd] in *.
  split; [exact Hc2 |].
  rewrite length_app, Hn1, Hn2.
  destruct (has_value d); cbn [List.length]; lia.
Qed.

(** A warm snapshot and a drive with four values and one null result:
    sixteen lines. *)
Lemma complete_stays_complete_witness :
  complete (fst (poll Roadside.warm Scenario.drive)) = true
  /\ List.length (snd (poll Roadside.warm Scenario.drive)) = 16%nat.
Proof.
  apply (complete_stays_complete Roadside.warm Scenario.drive).
  reflexivity.
Defined.

(** X8. Deliveries for different commands commute on the snapshot: the
    two callbacks write different fields, so either order leaves the same
    values. *)
Theorem deliveries_commute :
  forall (data : Data) (d1 d2 : delivery),
    command_eqb (fst d1) (fst d2) = false ->
    fst (poll data [d1; d2]) = fst (poll data [d2; d1]).
Proof.
  intros data [c1 [v1]] [c2 [v2]] Hne.
  rewrite !poll_data. unfold snapshot_after. cbn [latest fst snd value].
  destruct c1, c2; cbn in Hne; try discriminate Hne;
    destruct v1, v2; reflexivity.
Qed.

(** RPM then percent torque, or percent torque then RPM. *)
Lemma deliveries_commute_witness :
  fst (poll initial_data
            [ (RPM, {| value := Some (Float 2000) |});
              (ACTUAL_ENGINE_PERCENT_TORQUE, {| value := Some (Int 50) |}) ])
  = fst (poll initial_data
              [ (ACTUAL_ENGINE_PERCENT_TORQUE, {| value := Some (Int 50) |});
                (RPM, {| value := Some (Float 2000) |}) ]).
Proof.
  apply (deliveries_commute initial_data
           (RPM, {| value := Some (Float 2000) |})
           (ACTUAL_ENGINE_PERCENT_TORQUE, {| value := Some (Int 50) |})).
  reflexivity.
Defined.

End AggregatorMore.

(** ** Discovery: what is returned, what is probed, what gets through *)

Section DiscoveryMore.
Local Open Scope list_scope.
Variable w : World.

Lemma attempt_probed (c : candidate) : probed (trace (attempt w c)) = [c].
Proof.
  unfold attempt, serial_attempt, wifi_attempt.
  destruct c as [port | ip port].
  - destruct (serial_async w port) as [conn | e]; cbn;
      [destruct (is_connected conn) | destruct (is_Exception e)];
      reflexivity.
  - generalize (socket_url ip port) as url; intros url.
    destruct (create_connection w ip port) as [[] | e]; cbn.
    + destruct (socket_async w url) as [conn | e]; cbn;
        [destruct (is_connected conn) | destruct (is_Exception e)];
        reflexivity.
    + destruct (is_Exception e); reflexivity.
Qed.

Lemma attempt_returns (c : candidate) (conn : Connection) :
  outcome (attempt w c) = Ret (Some conn) ->
  is_connected conn = true /\ probe w c = Ret conn.
Proof.
  unfold attempt, serial_attempt, wifi_attempt, probe.
  destruct c as [port | ip port].
  - destruct (serial_async w port) as [conn' | e]; cbn.
    + destruct (is_connected conn') eqn:Hc; cbn; intros H;
        inversion H; subst; auto.
    + destruct (is_Exception e); cbn; intros H; discriminate H.
  - generalize (socket_url ip port) as url; intros url.
    destruct (create_connection w ip port) as [[] | e]; cbn.
    + destruct (socket_async w url) as [conn' | e]; cbn.
      * destruct (is_connected conn') eqn:Hc; cbn; intros H;
          inversion H; subst; auto.
      * destruct (is_Exception e); cbn; intros H; discriminate H.
    + destruct (is_Exception e); cbn; intros H; discriminate H.
Qed.

Lemma attempt_aborts (c : candidate) (e : exn) :
  aborts w c = Some e -> outcome (attempt w c) = Raise e.
Proof.
  unfold aborts, attempt, serial_attempt, wifi_attempt, probe.
  destruct c as [port | ip port].
  - destruct (serial_async w port) as [conn | e']; cbn;
      [intros H; discriminate H |].
    destruct (is_Exception e') eqn:He; intros H; inversion H; subst.
    cbn. rewrite ?He. reflexivity.
  - generalize (socket_url ip port) as url; intros url.
    destruct (create_connection w ip port) as [[] | e']; cbn.
    + destruct (socket_async w url) as [conn | e'']; cbn;
        [intros H; discriminate H |].
      destruct (is_Exception e'') eqn:He; intros H; inversion H; subst.
      cbn. rewrite ?He. reflexivity.
    + destruct (is_Exception e') eqn:He; intros H; inversion H; subst.
      cbn. rewrite ?He. reflexivity.
Qed.

Lemma attempt_all_returns (cs : list candidate) (conn : Connection) :
  outcome (attempt_all w cs) = Ret (Some conn) ->
  is_connected conn = true /\ exists c, In c cs /\ probe w c = Ret conn.
Proof.
  induction cs as [| c cs IH]; cbn [attempt_all].
  - intros H. discriminate H.
  - rewrite outcome_bind.
    destruct (outcome (attempt w c)) as [[conn' |] | e] eqn:Ho.
    + cbn. intros H. inversion H; subst.
      destruct (attempt_returns c conn Ho) as [Hc Hp].
      split; [exact Hc |]. exists c. cbn. auto.
    + intros H. destruct (IH H) as [Hc (c' & Hin & Hp)].
      split; [exact Hc |]. exists c'. cbn. auto.
    + intros H. discriminate H.
Qed.

Lemma attempt_all_prefix (cs : list candidate) :
  exists rest, cs = probed (trace (attempt_all w cs)) ++ rest.
Proof.
  induction cs as [| c cs [rest IH]]; [exists []; reflexivity |].
  cbn [attempt_all]. rewrite trace_bind, probed_app, attempt_probed.
  destruct (outcome (attempt w c)) as [[conn |] | e].
  - exists cs. reflexivity.
  - exists rest. cbn. rewrite <- IH. reflexivity.
  - exists cs. reflexivity.
Qed.

Lemma attempt_all_abort (pre post : list candidate) (c : candidate)
      (e : exn) :
  Forall (fun x => fails w x = true) pre ->
  aborts w c = Some e ->
  outcome (attempt_all w (pre ++ c :: post)) = Raise e
  /\ probed (trace (attempt_all w (pre ++ c :: post))) = pre ++ [c].
Proof.
  intros Hpre Ha.
  destruct (attempt_all_fail w pre Hpre) as [Ho Ht].
  rewrite attempt_all_app, outcome_bind, trace_bind, probed_app, Ho, Ht.
  cbn [attempt_all].
  rewrite outcome_bind, trace_bind, probed_app, attempt_probed.
  rewrite (attempt_aborts c e Ha). cbn. rewrite ?app_nil_r. auto.
Qed.

(** The counts of an event kind that is not a log line, over discovery. *)
Lemma count_app (p : event -> bool) (t t' : list event) :
  count p (t ++ t') = (count p t + count p t')%nat.
Proof. unfold count. rewrite filter_app, length_app. reflexivity. Qed.

Lemma attempt_sockets (c : candidate) :
  count is_socket_close (trace (attempt w c))
  = count is_socket_async (trace (attempt w c))
  /\ (count is_socket_async (trace (attempt w c))
      <= count is_create_connection (trace (attempt w c)))%nat.
Proof.
  unfold attempt, serial_attempt, wifi_attempt.
  destruct c as [port | ip port].
  - destruct (serial_async w port) as [conn | e]; cbn;
      [destruct (is_connected conn) | destruct (is_Exception e)];
      cbn; auto.
  - generalize (socket_url ip port) as url; intros url.
    destruct (create_connection w ip port) as [[] | e]; cbn.
    + destruct (socket_async w url) as [conn | e]; cbn;
        [destruct (is_connected conn) | destruct (is_Exception e)];
        cbn; auto.
    + destruct (is_Exception e); cbn; auto.
Qed.

Lemma attempt_all_sockets (cs : list candidate) :
  count is_socket_close (trace (attempt_all w cs))
  = count is_socket_async (trace (attempt_all w cs))
  /\ (count is_socket_async (trace (attempt_all w cs))
      <= count is_create_connection (trace (attempt_all w cs)))%nat.
Proof.
  induction cs as [| c cs [IHe IHl]]; [cbn; auto |].
  destruct (attempt_sockets c) as [He Hl].
  cbn [attempt_all]. rewrite trace_bind, !count_app.
  unfold count, trace in *.
  destruct (outcome (attempt w c)) as [[conn |] | e];
    cbn [ret fst filter List.length]; lia.
Qed.

End DiscoveryMore.

Section DiscoveryExtras.
Local Open Scope list_scope.

Lemma count_connect_obd (p : event -> bool) (w : World) :
  (forall line, p (Print line) = false) ->
  count p (trace (connect_obd w))
  = count p (trace (attempt_all w (candidates w))).
Proof.
  intros Hp. rewrite connect_obd_attempt_all, !trace_bind.
  destruct (outcome (attempt_all w (candidates w))) as [[conn |] | e];
    cbn; unfold count; cbn [filter]; rewrite Hp;
    rewrite ?filter_app, ?length_app; cbn [filter]; rewrite ?Hp;
    cbn [List.length]; lia.
Qed.

Lemma attempt_discovery_events (w : World) (c : candidate) :
  forallb discovery_event (trace (attempt w c)) = true.
Proof.
  unfold attempt, serial_attempt, wifi_attempt.
  destruct c as [port | ip port].
  - destruct (serial_async w port) as [conn | e]; cbn;
      [destruct (is_connected conn) | destruct (is_Exception e)];
      reflexivity.
  - generalize (socket_url ip port) as url; intros url.
    destruct (create_connection w ip port) as [[] | e]; cbn.
    + destruct (socket_async w url) as [conn | e]; cbn;
        [destruct (is_connected conn) | destruct (is_Exception e)];
        reflexivity.
    + destruct (is_Exception e); reflexivity.
Qed.

Lemma attempt_all_discovery_events (w : World) (cs : list candidate) :
  forallb discovery_event (trace (attempt_all w cs)) = true.
Proof.
  induction cs as [| c cs IH]; [reflexivity |].
  cbn [attempt_all].
  rewrite trace_bind, forallb_app, attempt_discovery_events.
  destruct (outcome (attempt w c)) as [[conn |] | e];
    [reflexivity | exact IH | reflexivity].
Qed.

Lemma connect_obd_discovery_events (w : World) :
  forallb discovery_event (trace (connect_obd w)) = true.
Proof.
  rewrite connect_obd_attempt_all, trace_bind.
  cbn [print emit outcome trace fst snd].
  rewrite trace_bind, !forallb_app, attempt_all_discovery_events.
  destruct (outcome (attempt_all w (candidates w))) as [[conn |] | e];
    reflexivity.
Qed.

(** X9. A session that discovery returns reports connected, and it is
    the answer of one of the candidates: a session that is not connected
    is never handed to the rest of the program. *)
Theorem connect_obd_returns_connected :
  forall (w : World) (conn : Connection),
    outcome (connect_obd w) = Ret conn ->
    is_connected conn = true
    /\ exists c, In c (candidates w) /\ probe w c = Ret conn.
Proof.
  intros w conn. rewrite outcome_connect_obd.
  destruct (outcome (attempt_all w (candidates w))) as [[conn' |] | e] eqn:Ho;
    intros H; inversion H; subst.
  apply (attempt_all_returns w (candidates w) conn Ho).
Qed.

(** The session found in the garage. *)
Lemma connect_obd_returns_connected_witness :
  is_connected (Scenario.session "socket://192.168.0.10:23" true
                                 Scenario.all_supported) = true
  /\ exists c,
      In c (candidates (Scenario.garage Scenario.all_supported))
      /\ probe (Scenario.garage Scenario.all_supported) c
         = Ret (Scenario.session "socket://192.168.0.10:23" true
                                 Scenario.all_supported).
Proof.
  apply (connect_obd_returns_connected
           (Scenario.garage Scenario.all_supported)).
  reflexivity.
Defined.

(** X10. Whatever the transports answer, the candidates probed form an
    initial segment of the candidate list: discovery probes in order,
    skips nothing, and probes no candidate a second time. *)
Theorem probed_is_prefix :
  forall w : World,
    exists rest, candidates w = probed (trace (connect_obd w)) ++ rest.
Proof.
  intros w. rewrite probed_connect_obd. apply attempt_all_prefix.
Qed.

(** X11. An exception that is not an [Exception] (an interrupt during a
    probe) is not swallowed: it leaves [connect_obd], and no candidate
    after the one being probed is tried. *)
Theorem connect_obd_lets_interrupt_through :
  forall (w : World) (pre post : list candidate) (c : candidate) (e : exn),
    candidates w = pre ++ c :: post ->
    Forall (fun x => fails w x = true) pre ->
    aborts w c = Some e ->
    outcome (connect_obd w) = Raise e
    /\ probed (trace (connect_obd w)) = pre ++ [c].
Proof.
  intros w pre post c e Hsplit Hpre Ha.
  destruct (attempt_all_abort w pre post c e Hpre Ha) as [Ho Ht].
  rewrite outcome_connect_obd, probed_connect_obd, Hsplit, Ho, Ht. auto.
Qed.

(** An interrupt while the second serial device is probed. *)
Lemma connect_obd_lets_interrupt_through_witness :
  outcome (connect_obd Roadside.interrupted) = Raise KeyboardInterrupt
  /\ probed (trace (connect_obd Roadside.interrupted))
     = [Serial "/dev/ttyUSB0"; Serial "/dev/rfcomm0"].
Proof.
  apply (connect_obd_lets_interrupt_through Roadside.interrupted
           [Serial "/dev/ttyUSB0"]
           [ Wifi "192.168.0.10" 35000; Wifi "192.168.0.10" 23;
             Wifi "192.168.0.11" 35000; Wifi "192.168.0.123" 35000 ]
           (Serial "/dev/rfcomm0") KeyboardInterrupt).
  - reflexivity.
  - repeat constructor.
  - reflexivity.
Defined.

(** X12. Discovery only logs and probes: every event of [connect_obd]
    is a printed line, the opening of a session, or the reachability
    check and its close; it registers no command, subscribes no
    callback and neither starts nor stops polling. *)
Theorem connect_obd_only_probes :
  forall w : World, forallb discovery_event (trace (connect_obd w)) = true.
Proof. intros w. apply connect_obd_discovery_events. Qed.

(** X13. In the trace of discovery there are as many closes of a probe
    socket as socket sessions opened, and at most as many as
    reachability checks: no socket session is opened for an endpoint
    whose reachability check failed, and no probe socket stays open. *)
Theorem socket_probe_discipline :
  forall w : World,
    count is_socket_close (trace (connect_obd w))
    = count is_socket_async (trace (connect_obd w))
    /\ (count is_socket_async (trace (connect_obd w))
        <= count is_create_connection (trace (connect_obd w)))%nat.
Proof.
  intros w.
  rewrite !count_connect_obd by reflexivity.
  apply attempt_all_sockets.
Qed.

End DiscoveryExtras.

(** ** The main coroutine: when it polls, and that it stops *)

Section MainMore.
Local Open Scope list_scope.

Lemma main_connect_raise (w : World) (ds : list delivery) (thrown e : exn) :
  outcome (connect_obd w) = Raise e ->
  main w ds thrown = (trace (connect_obd w), Raise e).
Proof.
  intros H. unfold main. destruct (connect_obd w) as [t r].
  cbn in H. subst r. reflexivity.
Qed.

Lemma all_or_one_unsupported (conn : Connection) :
  (forall cmd, In cmd required_commands -> supports conn cmd = true)
  \/ (exists cmd, In cmd required_commands /\ supports conn cmd = false).
Proof.
  destruct (forallb (supports conn) required_commands) eqn:H.
  - left. intros cmd Hin.
    apply (proj1 (forallb_forall _ _) H cmd Hin).
  - right.
    destruct (supports conn RPM) eqn:H1;
      [| exists RPM; cbn; tauto].
    destruct (supports conn ACTUAL_ENGINE_PERCENT_TORQUE) eqn:H2;
      [| exists ACTUAL_ENGINE_PERCENT_TORQUE; cbn; tauto].
    destruct (supports conn ENGINE_REF_TORQUE) eqn:H3;
      [| exists ENGINE_REF_TORQUE; cbn; tauto].
    cbn in H. rewrite H1, H2, H3 in H. discriminate H.
Qed.

Lemma count_none (p q : event -> bool) (t : list event) :
  (forall ev, q ev = true -> p ev = false) ->
  forallb q t = true -> count p t = 0%nat.
Proof.
  intros Hpq. unfold count.
  induction t as [| ev t IH]; cbn; [reflexivity |].
  intros H. apply andb_true_iff in H. destruct H as [Hq Ht].
  rewrite (Hpq ev Hq). apply IH, Ht.
Qed.

Lemma process_data_prints (data : Data) :
  forallb is_print (process_data data) = true.
Proof.
  unfold process_data.
  destruct (data_RPM data), (data_Torque_Percent data),
    (data_Reference_Torque data); reflexivity.
Qed.

Lemma deliver_prints (data : Data) (d : delivery) :
  forallb is_print (snd (deliver data d)) = true.
Proof.
  rewrite deliver_output.
  destruct (value (snd d)); [apply process_data_prints | reflexivity].
Qed.

(** The callbacks print and do nothing else. *)
Lemma poll_prints (ds : list delivery) :
  forall data, forallb is_print (snd (poll data ds)) = true.
Proof.
  induction ds as [| d ds IH]; intros data; [reflexivity |].
  cbn [poll]. pose proof (deliver_prints data d) as Hd.
  destruct (deliver data d) as [data1 out1].
  specialize (IH data1). destruct (poll data1 ds) as [data2 out2].
  cbn [snd] in *. rewrite forallb_app, Hd, IH. reflexivity.
Qed.

Lemma main_quiet_without_session (w : World) (ds : list delivery)
      (thrown e : exn) :
  outcome (connect_obd w) = Raise e ->
  existsb polls (trace (main w ds thrown)) = false
  /\ count is_start (trace (main w ds thrown)) = 0%nat
  /\ count is_stop (trace (main w ds thrown)) = 0%nat.
Proof.
  intros H. rewrite (main_connect_raise w ds thrown e H). cbn [trace fst].
  split; [apply connect_obd_quiet |].
  split; apply (count_none _ discovery_event);
    try apply connect_obd_discovery_events;
    intros [] Hq; try reflexivity; discriminate Hq.
Qed.

Lemma main_quiet_at_gate (w : World) (ds : list delivery) (thrown : exn)
      (conn : Connection) :
  outcome (connect_obd w) = Ret conn ->
  (exists cmd, In cmd required_commands /\ supports conn cmd = false) ->
  existsb polls (trace (main w ds thrown)) = false
  /\ count is_start (trace (main w ds thrown)) = 0%nat
  /\ count is_stop (trace (main w ds thrown)) = 0%nat.
Proof.
  intros Hconn Hno.
  rewrite (main_gate_stop w ds thrown conn Hconn Hno). cbn [trace fst].
  assert (Hd : forall p,
             (forall ev, discovery_event ev = true -> p ev = false) ->
             count p (trace (connect_obd w)) = 0%nat)
    by (intros p Hp; apply (count_none p discovery_event _ Hp),
          connect_obd_discovery_events).
  assert (Hn : forall p,
             (forall ev, is_print ev = true -> p ev = false) ->
             count p
               (map (fun cmd => Print ("- " ++ name cmd))
                  (filter (fun cmd => negb (supports conn cmd))
                     required_commands)) = 0%nat).
  { intros p Hp. apply (count_none p is_print _ Hp).
    induction (filter (fun cmd => negb (supports conn cmd)) required_commands)
      as [| c cs IH]; [reflexivity | exact IH]. }
  split; [| split].
  - rewrite !existsb_app, connect_obd_quiet, prints_quiet. reflexivity.
  - rewrite !count_app, Hd, Hn;
      [reflexivity | |]; intros [] Hq; try reflexivity; discriminate Hq.
  - rewrite !count_app, Hd, Hn;
      [reflexivity | |]; intros [] Hq; try reflexivity; discriminate Hq.
Qed.




(** X15. Polling is stopped exactly when it was started: in the trace
    of [main], whatever ends the wait, [connection.stop()] is called as
    often as [connection.start()], at most once, and when it is called it
    is the last thing [main] does. *)
Theorem stop_matches_start :
  forall (w : World) (ds : list delivery) (thrown : exn),
    count is_stop (trace (main w ds thrown))
    = count is_start (trace (main w ds thrown))
    /\ (count is_start (trace (main w ds thrown)) <= 1)%nat
    /\ (count is_start (trace (main w ds thrown)) = 1%nat ->
        exists t, trace (main w ds thrown) = t ++ [Stop]).
Proof.
  intros w ds thrown.
  destruct (outcome (connect_obd w)) as [conn | e] eqn:Ho.
  - destruct (all_or_one_unsupported conn) as [Hall | Hno].
    + rewrite (main_polling w ds thrown conn Ho Hall). cbn [trace fst].
      assert (Hd : forall p,
                 (forall ev, discovery_event ev = true -> p ev = false) ->
                 count p (trace (connect_obd w)) = 0%nat)
        by (intros p Hp; apply (count_none p discovery_event _ Hp),
              connect_obd_discovery_events).
      assert (Hp : forall p,
                 (forall ev, is_print ev = true -> p ev = false) ->
                 count p (snd (poll initial_data ds)) = 0%nat)
        by (intros p Hp; apply (count_none p is_print _ Hp), poll_prints).
      rewrite !count_app, !Hd, !Hp
        by (intros [] Hq; try reflexivity; discriminate Hq).
      split; [| split].
      * destruct thrown; reflexivity.
      * destruct thrown; cbn; lia.
      * intros _. destruct thrown;
          try (eexists; rewrite !app_assoc; reflexivity).
        exists ((trace (connect_obd w)
                   ++ [ AddCustom ACTUAL_ENGINE_PERCENT_TORQUE;
                        AddCustom ENGINE_REF_TORQUE;
                        Watch RPM; Watch ACTUAL_ENGINE_PERCENT_TORQUE;
                        Watch ENGINE_REF_TORQUE;
                        SetPollInterval poll_interval; Start ]
                   ++ snd (poll initial_data ds))
                ++ [Print "Stopping..."]).
        rewrite <- !app_assoc. reflexivity.
    + destruct (main_quiet_at_gate w ds thrown conn Ho Hno)
        as (_ & Hstart & Hstop).
      rewrite Hstart, Hstop. split; [reflexivity | split; [lia |]].
      intros H. discriminate H.
  - destruct (main_quiet_without_session w ds thrown e Ho)
      as (_ & Hstart & Hstop).
    rewrite Hstart, Hstop. split; [reflexivity | split; [lia |]].
    intros H. discriminate H.
Qed.

End MainMore.
